(** * Tap-Handle-CAD: a shallow embedding of [cad/tap_handle.py]

    The script holds a record of dimensions ([TapHandleSpec]), calls the
    build123d geometry kernel in a fixed order ([make_tap_handle]) and
    exports the result (the [__main__] block).

    - Python's [float] is IEEE-754 binary64, i.e. Rocq's primitive floats;
      every arithmetic operation and comparison below is the float one.
    - A [TapHandleSpec] instance is a mutable object: instances live in a
      heap and the code receives a reference.
    - The kernel is an external collaborator.  The solids it builds are
      recorded as terms over its operations ([bd.Shape]); what only the
      kernel can tell (the edges of a solid, their centroids) is a parameter
      of the development. *)

From Stdlib Require Import Floats List String ZArith Lia.
From stdpp Require Import base option gmap.
Import ListNotations.

Set Warnings "-inexact-float".

(* ------------------------------------------------------------------ *)
(** ** The kernel interface, [import build123d as bd] *)

Module bd.

(** [bd.Vector]: what [edge.center()] returns. *)
Record Vector : Type := mkVector { X : float; Y : float; Z : float }.

(** [bd.Align], one per axis. *)
Inductive Align : Type := MIN | CENTER | MAX.

(** [bd.Pos(X=.., Y=.., Z=..)]. *)
Inductive Location : Type := Pos (x y z : float).

Section Shapes.
Variable Edge : Type.

(** The kernel calls of the script, as a term language.  [add], [sub]
    and [mul] are the operators [+], [-] and [Location * shape];
    [Shape_fillet] is the method [shape.fillet(radius, edge_list)]. *)
Inductive Shape : Type :=
| Part_None
| Cylinder (radius height : float) (align : Align * Align * Align)
| Box (length width height : float) (align : Align * Align * Align)
| RegularPolygon (radius : float) (side_count : nat)
| extrude (to_extrude : Shape) (amount : float)
| mul (loc : Location) (shape : Shape)
| add (a b : Shape)
| sub (a b : Shape)
| Shape_fillet (self : Shape) (radius : float) (edge_list : list Edge).

(** [shape.edges()] is a [ShapeList]; every edge in it remembers the
    shape it was taken from ([topo_parent]). *)
Record ShapeList : Type :=
  mkShapeList { topo_parent : Shape; items : list Edge }.

(** The function [bd.fillet(objects, radius)] fillets the parent of the
    edges it is given. *)
Definition fillet (objects : ShapeList) (radius : float) : Shape :=
  Shape_fillet (topo_parent objects) radius (items objects).
End Shapes.

Arguments Part_None {Edge}.
Arguments Cylinder {Edge} radius height align.
Arguments Box {Edge} length width height align.
Arguments RegularPolygon {Edge} radius side_count.
Arguments extrude {Edge} to_extrude amount.
Arguments mul {Edge} loc shape.
Arguments add {Edge} a b.
Arguments sub {Edge} a b.
Arguments Shape_fillet {Edge} self radius edge_list.
Arguments mkShapeList {Edge} topo_parent items.
Arguments topo_parent {Edge} s.
Arguments items {Edge} s.
Arguments fillet {Edge} objects radius.

End bd.

(** [import build123d_ease as bde]. *)
Module bde.
Module align.
(** Modelled from the spec: [build123d_ease] is not among the sources.
    The spec (4.2) has the handle primitives "anchored so [the] top face
    sits at Z=0" and the shaft cylinder "anchored at its bottom face",
    both centred on the shaft axis. *)
Definition ANCHOR_TOP : bd.Align * bd.Align * bd.Align :=
  (bd.CENTER, bd.CENTER, bd.MAX).
(** Modelled from the spec: the counterpart of [ANCHOR_TOP], "anchored
    at its bottom face" (4.2, step 2). *)
Definition ANCHOR_BOTTOM : bd.Align * bd.Align * bd.Align :=
  (bd.CENTER, bd.CENTER, bd.MIN).
End align.
End bde.

Declare Scope shape_scope.
Delimit Scope shape_scope with shape.
Infix "+" := bd.add : shape_scope.
Infix "-" := bd.sub : shape_scope.
Infix "*" := bd.mul : shape_scope.

(* ------------------------------------------------------------------ *)
(** ** [TapHandleSpec] *)

(** The [@dataclass]: eleven fields annotated [float].  (The one int
    among the defaults, 140, is the float of the same value wherever it is
    used.) *)
Record TapHandleSpec : Type := mkTapHandleSpec {
  shaft_od : float;
  shaft_length : float;
  shaft_hex_length : float;
  tap_diameter : float;
  tap_square_length : float;
  tap_round_length : float;
  handle_base_diameter : float;
  handle_t_width : float;
  handle_t_length : float;
  handle_t_length_2 : float;
  handle_t_height : float
}.

(** The field defaults of the class body. *)
Definition TapHandleSpec_defaults : TapHandleSpec := {|
  shaft_od := 12.5;
  shaft_length := 140;
  shaft_hex_length := 10.0;
  tap_diameter := 3.0;
  tap_square_length := 10.0;
  tap_round_length := 2.0;
  handle_base_diameter := 30.0;
  handle_t_width := 15.0;
  handle_t_length := 120.0;
  handle_t_length_2 := 60.0;
  handle_t_height := 10.0
|}.

(** Attribute names, for [obj.name] and [obj.name = value]. *)
Module attr.
Inductive t : Type :=
| shaft_od | shaft_length | shaft_hex_length | tap_diameter
| tap_square_length | tap_round_length | handle_base_diameter
| handle_t_width | handle_t_length | handle_t_length_2 | handle_t_height.

Definition eqb (a b : t) : bool :=
  match a, b with
  | shaft_od, shaft_od | shaft_length, shaft_length
  | shaft_hex_length, shaft_hex_length | tap_diameter, tap_diameter
  | tap_square_length, tap_square_length
  | tap_round_length, tap_round_length
  | handle_base_diameter, handle_base_diameter
  | handle_t_width, handle_t_width | handle_t_length, handle_t_length
  | handle_t_length_2, handle_t_length_2
  | handle_t_height, handle_t_height => true
  | _, _ => false
  end.
End attr.

(** [s.a] on the instance itself. *)
Definition get (a : attr.t) (s : TapHandleSpec) : float :=
  match a with
  | attr.shaft_od => shaft_od s
  | attr.shaft_length => shaft_length s
  | attr.shaft_hex_length => shaft_hex_length s
  | attr.tap_diameter => tap_diameter s
  | attr.tap_square_length => tap_square_length s
  | attr.tap_round_length => tap_round_length s
  | attr.handle_base_diameter => handle_base_diameter s
  | attr.handle_t_width => handle_t_width s
  | attr.handle_t_length => handle_t_length s
  | attr.handle_t_length_2 => handle_t_length_2 s
  | attr.handle_t_height => handle_t_height s
  end.

(** [s.a = v]: the dataclass is not frozen, so every field can be
    assigned. *)
Definition set (a : attr.t) (v : float) (s : TapHandleSpec) : TapHandleSpec :=
  {| shaft_od := if attr.eqb a attr.shaft_od then v else shaft_od s;
     shaft_length := if attr.eqb a attr.shaft_length then v else shaft_length s;
     shaft_hex_length :=
       if attr.eqb a attr.shaft_hex_length then v else shaft_hex_length s;
     tap_diameter := if attr.eqb a attr.tap_diameter then v else tap_diameter s;
     tap_square_length :=
       if attr.eqb a attr.tap_square_length then v else tap_square_length s;
     tap_round_length :=
       if attr.eqb a attr.tap_round_length then v else tap_round_length s;
     handle_base_diameter :=
       if attr.eqb a attr.handle_base_diameter then v
       else handle_base_diameter s;
     handle_t_width :=
       if attr.eqb a attr.handle_t_width then v else handle_t_width s;
     handle_t_length :=
       if attr.eqb a attr.handle_t_length then v else handle_t_length s;
     handle_t_length_2 :=
       if attr.eqb a attr.handle_t_length_2 then v else handle_t_length_2 s;
     handle_t_height :=
       if attr.eqb a attr.handle_t_height then v else handle_t_height s |}.

(** Object identity: a reference into the heap of instances. *)
Definition ref : Type := nat.

(* ------------------------------------------------------------------ *)
(** ** Exceptions *)

Inductive exn : Type :=
| AssertionError (msg : option string)
  (** [assert cond] raises [AssertionError None], [assert cond, m] raises
      [AssertionError (Some m)]. *)
| ReferenceError
  (** a reference to no live instance; Python never produces one, the
      theorems exclude it by asking for a live reference. *).

Inductive result (A : Type) : Type :=
| Ok (a : A)
| Raise (e : exn).
Arguments Ok {A} a.
Arguments Raise {A} e.

(* ------------------------------------------------------------------ *)
(** ** A stand-in environment

    Concrete values for what the runtime and the kernel provide to the
    program below, small enough to run it: edges are their centroids and
    every solid has the same three of them, one on the junction ring, one
    far from the axis and one up the shaft. *)

Module Example.

Local Open Scope float_scope.

Definition Edge : Type := bd.Vector.

Definition center (edge : Edge) : bd.Vector := edge.

Definition ring_edge : Edge := bd.mkVector 10 0 0.1.
Definition far_edge : Edge := bd.mkVector 60 0 0.1.
Definition shaft_edge : Edge := bd.mkVector 6.25 0 130.

Definition explore_edges (shape : bd.Shape Edge) : list Edge :=
  [ring_edge; far_edge; shaft_edge].

(** A kernel that finds no edge on the junction ring. *)
Definition explore_edges_no_ring (shape : bd.Shape Edge) : list Edge :=
  [far_edge; shaft_edge].

(** The correctly rounded power at the two exponents the script uses. *)
Definition float_pow (x y : float) : float :=
  if y =? 0.5 then sqrt x else if y =? 2 then x * x else nan.

(** Enough of [:.2f] for the one value the default instance logs. *)
Definition format_2f (x : float) : string := "2.12".

Inductive PyObject : Type :=
| solid (cls : string) (shape : bd.Shape Edge)
| text (value : string).

Definition Class : Type := string.

Definition type (obj : PyObject) : Class :=
  match obj with
  | solid cls _ => cls
  | text _ => "str"%string
  end.

Definition issubclass (cls base : Class) : bool := String.eqb cls base.

Definition class_str (cls : Class) : string :=
  ("<class '" ++ cls ++ "'>")%string.

Definition bd_Part : Class := "Part"%string.
Definition bd_Solid : Class := "Solid"%string.
Definition bd_Compound : Class := "Compound"%string.

Definition show (shape : bd.Shape Edge) : PyObject := solid bd_Part shape.

Definition export_folder : string := "build".

(** The join for the names used here: relative, plain file names. *)
Definition joinpath (folder name : string) : string :=
  (folder ++ "/" ++ name)%string.

(** One instance, with the defaults. *)
Definition spec : ref := 0%nat.

Definition heap : gmap ref TapHandleSpec :=
  {[ spec := TapHandleSpec_defaults ]}.

End Example.

(* ------------------------------------------------------------------ *)
(** ** The program *)

Section Program.

Set Default Proof Using "Type".
Local Open Scope float_scope.

(** *** What the environment provides *)

(** The kernel: its edges, the centroid of an edge ([edge.center()]) and
    the enumeration of the edges of a solid, in the kernel's order. *)
Context {Edge : Type}.
Variable center : Edge -> bd.Vector.
Variable explore_edges : bd.Shape Edge -> list Edge.

(** The float power [x ** y] of the Python runtime, which is the C
    library's [pow]; an int operand enters as the float of the same value.
    The script uses it at [2 ** 0.5] and at [x ** 2].  Python turns a result
    out of the float range into an [OverflowError]; here the power is the
    C function. *)
Variable float_pow : float -> float -> float.

(** The format specification [:.2f]. *)
Variable format_2f : float -> string.

(** Python values and their classes, as far as the export loop looks at
    them: [type(part)], [issubclass], [str(cls)] and the three kernel
    classes of the [isinstance] check; [show] of [build123d_ease] hands
    the solid on as a value. *)
Context {PyObject : Type} {Class : Type}.
Variable type : PyObject -> Class.
Variable issubclass : Class -> Class -> bool.
Variable class_str : Class -> string.
Variables bd_Part bd_Solid bd_Compound : Class.
Variable show : bd.Shape Edge -> PyObject.

(** [Path(__file__).parent.with_name("build")], as a string. *)
Variable export_folder : string.

(** [str(folder / name)] of [pathlib]: the join of a folder and a file
    name, rendered as a string.  (For a relative name without dots or
    doubled slashes it is the folder, a slash and the name; an absolute
    name replaces the folder.) *)
Variable joinpath : string -> string -> string.

Abbreviation Shape := (bd.Shape Edge).

(** *** State and effects *)

(** What the program does to the outside world. *)
Inductive Event : Type :=
| logger_info (msg : string)
| mkdir (path : string)
| export_stl (to_export : PyObject) (file_path : string)
| export_step (to_export : PyObject) (file_path : string).

Record World : Type := mkWorld {
  heap : gmap ref TapHandleSpec;
  events : list Event
}.

(** A computation reads and updates the world and returns or raises. *)
Definition M (A : Type) : Type := World -> result A * World.

Definition ret {A} (a : A) : M A := fun w => (Ok a, w).

Definition bind {A B} (m : M A) (k : A -> M B) : M B :=
  fun w =>
    match m w with
    | (Ok a, w') => k a w'
    | (Raise e, w') => (Raise e, w')
    end.

Definition raise {A} (e : exn) : M A := fun w => (Raise e, w).

Notation "'let!' x ':=' m 'in' k" := (bind m (fun x => k))
  (at level 10, x name, m at level 100, k at level 200).
Notation "'do!' m 'in' k" := (bind m (fun _ => k))
  (at level 10, m at level 100, k at level 200).

(** [spec.a] *)
Definition getattr (self : ref) (a : attr.t) : M float :=
  fun w =>
    match heap w !! self with
    | Some s => (Ok (get a s), w)
    | None => (Raise ReferenceError, w)
    end.

(** [spec.a = v] *)
Definition setattr (self : ref) (a : attr.t) (v : float) : M unit :=
  fun w =>
    match heap w !! self with
    | Some s =>
        (Ok tt, {| heap := <[self := set a v s]> (heap w);
                   events := events w |})
    | None => (Raise ReferenceError, w)
    end.

Definition emit (e : Event) : M unit :=
  fun w => (Ok tt, {| heap := heap w; events := events w ++ [e] |}).

(** [assert cond, msg] *)
Definition assert_ (cond : bool) (msg : option string) : M unit :=
  if cond then ret tt else raise (AssertionError msg).

(** *** [TapHandleSpec] methods *)

(** The property [tap_square_side_length]: computed from the instance at
    each access. *)
Definition tap_square_side_length (self : ref) : M float :=
  let! d := getattr self attr.tap_diameter in
  ret (d / float_pow 2 0.5).

Definition __post_init__ (self : ref) : M unit :=
  let! v := tap_square_side_length self in
  emit (logger_info ("tap_square_side_length: " ++ format_2f v)).

(** [TapHandleSpec(...)]: a new instance holding the given field values,
    then [__post_init__]. *)
Definition TapHandleSpec_new (init : TapHandleSpec) : M ref :=
  fun w =>
    let self := fresh (dom (heap w)) in
    (do! __post_init__ self in ret self)
      {| heap := <[self := init]> (heap w); events := events w |}.

(** *** [make_tap_handle] *)

(** [shape.edges()] *)
Definition edges (shape : Shape) : bd.ShapeList Edge :=
  bd.mkShapeList shape (explore_edges shape).

(** [x > y] on floats. *)
Definition float_gt (x y : float) : bool := y <? x.

(** Lines 47-66, "Add the T-shaped handle". *)
Definition handle_part (spec : ref) : M Shape :=
  let handle_part : Shape := bd.Part_None in
  let! base_diameter := getattr spec attr.handle_base_diameter in
  let! height := getattr spec attr.handle_t_height in
  let handle_part :=
    (handle_part
     + bd.Cylinder (base_diameter / 2) height bde.align.ANCHOR_TOP)%shape in
  let! t_length := getattr spec attr.handle_t_length in
  let! t_width := getattr spec attr.handle_t_width in
  let! t_height := getattr spec attr.handle_t_height in
  let handle_part :=
    (handle_part
     + bd.Box t_length t_width t_height bde.align.ANCHOR_TOP)%shape in
  let! t_width := getattr spec attr.handle_t_width in
  let! t_length_2 := getattr spec attr.handle_t_length_2 in
  let! t_height := getattr spec attr.handle_t_height in
  let handle_part :=
    (handle_part
     + bd.Box t_width t_length_2 t_height bde.align.ANCHOR_TOP)%shape in
  ret (bd.Pos 0 0 0.1 * bd.fillet (edges handle_part) 4.5)%shape.

(** Lines 68-87, "Create the shaft". *)
Definition shaft_part (spec : ref) : M Shape :=
  let shaft_part : Shape := bd.Part_None in
  let! od := getattr spec attr.shaft_od in
  let! len := getattr spec attr.shaft_length in
  let! hex_length := getattr spec attr.shaft_hex_length in
  let shaft_part :=
    (shaft_part
     + bd.Cylinder (od / 2) (len - hex_length) bde.align.ANCHOR_BOTTOM)%shape in
  let! len := getattr spec attr.shaft_length in
  let! hex_length := getattr spec attr.shaft_hex_length in
  let pos := bd.Pos 0 0 (len - hex_length - 0.01) in
  let! od := getattr spec attr.shaft_od in
  let! amount := getattr spec attr.shaft_hex_length in
  ret (shaft_part
       + pos * bd.extrude (bd.RegularPolygon (od / 2) 6) amount)%shape.

(** Lines 98-106: the condition of the list comprehension, with the
    short-circuit of [and]. *)
Definition at_intersection (spec : ref) (edge : Edge) : M bool :=
  if abs (bd.Z (center edge)) <? 0.2 then
    let! od := getattr spec attr.shaft_od in
    if float_pow (od / 2) 2 - 1
       <? float_pow (bd.X (center edge)) 2 + float_pow (bd.Y (center edge)) 2
    then
      let! base_diameter := getattr spec attr.handle_base_diameter in
      ret (float_gt
             (float_pow (base_diameter / 2) 2 + 1)
             (float_pow (bd.X (center edge)) 2
              + float_pow (bd.Y (center edge)) 2))
    else ret false
  else ret false.

(** Lines 95-107: [[edge for edge in ... if ...]]. *)
Fixpoint intersection_edges (spec : ref) (p_edges : list Edge)
  : M (list Edge) :=
  match p_edges with
  | [] => ret []
  | edge :: rest =>
      let! keep := at_intersection spec edge in
      let! selected := intersection_edges spec rest in
      ret (if keep then edge :: selected else selected)
  end.

(** Lines 116-127, "At the top of the shaft, remove the square
    interface". *)
Definition tap_interface_cuts (spec : ref) (p : Shape) : M Shape :=
  let! z := getattr spec attr.shaft_length in
  let! side_x := tap_square_side_length spec in
  let! side_y := tap_square_side_length spec in
  let! square_length := getattr spec attr.tap_square_length in
  let p :=
    (p - bd.Pos 0 0 z
         * bd.Box side_x side_y square_length bde.align.ANCHOR_TOP)%shape in
  let! z := getattr spec attr.shaft_length in
  let! diameter := getattr spec attr.tap_diameter in
  let! round_length := getattr spec attr.tap_round_length in
  ret (p - bd.Pos 0 0 z
           * bd.Cylinder (diameter / 2) round_length
               bde.align.ANCHOR_TOP)%shape.

(** Lines 129-134, "At the handle-side, add a place to put a bolt for
    security". *)
Definition security_bolt_hole (spec : ref) (p : Shape) : M Shape :=
  let! t_height := getattr spec attr.handle_t_height in
  ret (p - bd.Pos 0 0 (- t_height - 0.1)
           * bd.Cylinder (4.9 / 2) 50 bde.align.ANCHOR_BOTTOM)%shape.

Definition make_tap_handle (spec : ref) : M Shape :=
  let! handle_part := handle_part spec in
  let! shaft_part := shaft_part spec in
  let p := (bd.Part_None + handle_part + shaft_part)%shape in
  let! intersection_edges :=
    intersection_edges spec (bd.items (edges p)) in
  do! assert_ (0 <? length intersection_edges)%nat None in
  let p := bd.Shape_fillet p 3.5 intersection_edges in
  let! p := tap_interface_cuts spec p in
  security_bolt_hole spec p.

(** *** The [__main__] block *)

(** [isinstance(obj, A | B | ...)] *)
Definition isinstance (obj : PyObject) (classes : list Class) : bool :=
  existsb (issubclass (type obj)) classes.

(** Lines 155-163: the loop over [parts.items()], a dict in insertion
    order.  The two file names are [str(export_folder / f"{name}.stl")]
    and [str(export_folder / f"{name}.step")]. *)
Fixpoint export_parts (parts : list (string * PyObject)) : M unit :=
  match parts with
  | [] => ret tt
  | (name, part) :: rest =>
      do! assert_ (isinstance part [bd_Part; bd_Solid; bd_Compound])
            (Some (name ++ " is not an expected type ("
                   ++ class_str (type part) ++ ")")%string) in
      do! emit (export_stl part
                  (joinpath export_folder (name ++ ".stl")%string)) in
      do! emit (export_step part
                  (joinpath export_folder (name ++ ".step")%string)) in
      export_parts rest
  end.

Definition main : M unit :=
  let! spec :=
    TapHandleSpec_new (set attr.tap_diameter 3.0 TapHandleSpec_defaults) in
  let! part := make_tap_handle spec in
  let parts := [("tap_handle_m3"%string, show part)] in
  do! emit (logger_info "Showing CAD model(s)") in
  do! emit (mkdir export_folder) in
  export_parts parts.

(** What the export loop writes for the entries [parts] when each of them
    passes the check. *)
Definition exports_of (parts : list (string * PyObject)) : list Event :=
  flat_map
    (fun '(name, part) =>
       [export_stl part (joinpath export_folder (name ++ ".stl")%string);
        export_step part (joinpath export_folder (name ++ ".step")%string)])
    parts.

(* ------------------------------------------------------------------ *)
(** ** The builder on a given instance

    [make_tap_handle] only reads its argument.  Once the instance [s]
    behind the reference is fixed, every block of the builder is a
    function of the field values of [s]; the run lemmas below say so. *)

Definition square_side_of (s : TapHandleSpec) : float :=
  tap_diameter s / float_pow 2 0.5.

Definition handle_of (s : TapHandleSpec) : Shape :=
  (bd.Pos 0 0 0.1
   * bd.fillet
       (edges
          (bd.Part_None
           + bd.Cylinder (handle_base_diameter s / 2) (handle_t_height s)
               bde.align.ANCHOR_TOP
           + bd.Box (handle_t_length s) (handle_t_width s)
               (handle_t_height s) bde.align.ANCHOR_TOP
           + bd.Box (handle_t_width s) (handle_t_length_2 s)
               (handle_t_height s) bde.align.ANCHOR_TOP))
       4.5)%shape.

Definition shaft_of (s : TapHandleSpec) : Shape :=
  (bd.Part_None
   + bd.Cylinder (shaft_od s / 2) (shaft_length s - shaft_hex_length s)
       bde.align.ANCHOR_BOTTOM
   + bd.Pos 0 0 (shaft_length s - shaft_hex_length s - 0.01)
     * bd.extrude (bd.RegularPolygon (shaft_od s / 2) 6)
         (shaft_hex_length s))%shape.

Definition combined_of (s : TapHandleSpec) : Shape :=
  (bd.Part_None + handle_of s + shaft_of s)%shape.

(** The squared distance of an edge's centroid from the shaft axis. *)
Definition radial2 (edge : Edge) : float :=
  float_pow (bd.X (center edge)) 2 + float_pow (bd.Y (center edge)) 2.

Definition selects (s : TapHandleSpec) (edge : Edge) : bool :=
  (abs (bd.Z (center edge)) <? 0.2)
  && ((float_pow (shaft_od s / 2) 2 - 1 <? radial2 edge)
      && (radial2 edge <? float_pow (handle_base_diameter s / 2) 2 + 1)).

Definition selected_of (s : TapHandleSpec) (p : Shape) : list Edge :=
  List.filter (selects s) (explore_edges p).

Definition tap_interface_cuts_of (s : TapHandleSpec) (p : Shape) : Shape :=
  (p
   - bd.Pos 0 0 (shaft_length s)
     * bd.Box (square_side_of s) (square_side_of s) (tap_square_length s)
         bde.align.ANCHOR_TOP
   - bd.Pos 0 0 (shaft_length s)
     * bd.Cylinder (tap_diameter s / 2) (tap_round_length s)
         bde.align.ANCHOR_TOP)%shape.

Definition security_bolt_hole_of (s : TapHandleSpec) (p : Shape) : Shape :=
  (p - bd.Pos 0 0 (- handle_t_height s - 0.1)
       * bd.Cylinder (4.9 / 2) 50 bde.align.ANCHOR_BOTTOM)%shape.

Definition make_tap_handle_of (s : TapHandleSpec) : result Shape :=
  match selected_of s (combined_of s) with
  | [] => Raise (AssertionError None)
  | _ :: _ =>
      Ok (security_bolt_hole_of s
            (tap_interface_cuts_of s
               (bd.Shape_fillet (combined_of s) 3.5
                  (selected_of s (combined_of s)))))
  end.

(* ------------------------------------------------------------------ *)
(** ** Geometry of the placement operators *)

Definition fmin (x y : float) : float := if x <? y then x else y.

(** Modelled from the spec: where the kernel puts a primitive along Z is
    not in the sources.  A primitive of height [h] anchored at its top
    occupies [-h, 0] ("top face sits at Z=0"), one anchored at its bottom
    occupies [0, h] ("running from Z=0 upward"). *)
Definition anchored_bottom_z (align : bd.Align * bd.Align * bd.Align)
    (height : float) : float :=
  match align with
  | (_, _, bd.MIN) => 0
  | (_, _, bd.CENTER) => - (height / 2)
  | (_, _, bd.MAX) => - height
  end.

(** Modelled from the spec: the lowest Z of a solid, which only the
    kernel knows.  [bd.Pos(Z=z) * shape] "shift[s] the whole [shape] up by"
    [z]; a union reaches down as far as its lowest operand; a fillet rounds
    edges and leaves the flat faces where they are.  For the remaining
    operations the spec gives no extent. *)
Fixpoint bottom_z (shape : Shape) : option float :=
  match shape with
  | bd.Part_None => None
  | bd.Cylinder _ height align => Some (anchored_bottom_z align height)
  | bd.Box _ _ height align => Some (anchored_bottom_z align height)
  | bd.mul (bd.Pos _ _ z) shape' =>
      match bottom_z shape' with
      | Some b => Some (b + z)
      | None => None
      end
  | bd.add a b =>
      match bottom_z a, bottom_z b with
      | Some x, Some y => Some (fmin x y)
      | Some x, None => Some x
      | None, r => r
      end
  | bd.Shape_fillet self _ _ => bottom_z self
  | bd.RegularPolygon _ _ | bd.extrude _ _ | bd.sub _ _ => None
  end.

Definition fmax (x y : float) : float := if x <? y then y else x.

(** Modelled from the spec: the counterpart of [anchored_bottom_z] for the
    highest Z of a primitive of height [h]: 0 when anchored at its top,
    [h] when anchored at its bottom. *)
Definition anchored_top_z (align : bd.Align * bd.Align * bd.Align)
    (height : float) : float :=
  match align with
  | (_, _, bd.MIN) => height
  | (_, _, bd.CENTER) => height / 2
  | (_, _, bd.MAX) => 0
  end.

(** Modelled from the spec: the highest Z of a solid, which only the
    kernel knows.  As for [bottom_z]; in addition a polygon "extruded for"
    [amount] starts where it is positioned (4.2, step 2), so that before
    its [bd.Pos] it reaches from 0 up to [amount]. *)
Fixpoint top_z (shape : Shape) : option float :=
  match shape with
  | bd.Part_None => None
  | bd.Cylinder _ height align => Some (anchored_top_z align height)
  | bd.Box _ _ height align => Some (anchored_top_z align height)
  | bd.extrude (bd.RegularPolygon _ _) amount => Some amount
  | bd.mul (bd.Pos _ _ z) shape' =>
      match top_z shape' with
      | Some t => Some (t + z)
      | None => None
      end
  | bd.add a b =>
      match top_z a, top_z b with
      | Some x, Some y => Some (fmax x y)
      | Some x, None => Some x
      | None, r => r
      end
  | bd.Shape_fillet self _ _ => top_z self
  | bd.RegularPolygon _ _ | bd.extrude _ _ | bd.sub _ _ => None
  end.

(* ------------------------------------------------------------------ *)
(** ** Run lemmas *)

Lemma bind_Ok {A B} (m : M A) (k : A -> M B) w a w' :
  m w = (Ok a, w') -> bind m k w = k a w'.
Proof. intros H. unfold bind. now rewrite H. Qed.

Lemma getattr_run spec a w s :
  heap w !! spec = Some s -> getattr spec a w = (Ok (get a s), w).
Proof. intros H. unfold getattr. now rewrite H. Qed.

Ltac run_reads H :=
  repeat (first
    [ rewrite (bind_Ok _ _ _ _ _ (getattr_run _ _ _ _ H))
    | progress cbv zeta ]).

Lemma tap_square_side_length_run spec w s :
  heap w !! spec = Some s ->
  tap_square_side_length spec w = (Ok (square_side_of s), w).
Proof. intros H. unfold tap_square_side_length. now run_reads H. Qed.

Lemma handle_part_run spec w s :
  heap w !! spec = Some s -> handle_part spec w = (Ok (handle_of s), w).
Proof. intros H. unfold handle_part. now run_reads H. Qed.

Lemma shaft_part_run spec w s :
  heap w !! spec = Some s -> shaft_part spec w = (Ok (shaft_of s), w).
Proof. intros H. unfold shaft_part. now run_reads H. Qed.

Lemma at_intersection_run spec w s edge :
  heap w !! spec = Some s ->
  at_intersection spec edge w = (Ok (selects s edge), w).
Proof.
  intros H. unfold at_intersection, selects, float_gt, radial2.
  destruct (abs (bd.Z (center edge)) <? 0.2); [| reflexivity].
  run_reads H. cbn [get andb].
  destruct (float_pow (shaft_od s / 2) 2 - 1 <? _); [| reflexivity].
  now run_reads H.
Qed.

Lemma intersection_edges_run spec w s p_edges :
  heap w !! spec = Some s ->
  intersection_edges spec p_edges w
  = (Ok (List.filter (selects s) p_edges), w).
Proof.
  intros H. induction p_edges as [| edge rest IH]; [reflexivity |].
  cbn [intersection_edges List.filter].
  rewrite (bind_Ok _ _ _ _ _ (at_intersection_run _ _ _ edge H)).
  rewrite (bind_Ok _ _ _ _ _ IH). reflexivity.
Qed.

Lemma tap_interface_cuts_run spec w s p :
  heap w !! spec = Some s ->
  tap_interface_cuts spec p w = (Ok (tap_interface_cuts_of s p), w).
Proof.
  intros H. unfold tap_interface_cuts.
  run_reads H.
  rewrite !(bind_Ok _ _ _ _ _ (tap_square_side_length_run _ _ _ H)).
  now run_reads H.
Qed.

Lemma security_bolt_hole_run spec w s p :
  heap w !! spec = Some s ->
  security_bolt_hole spec p w = (Ok (security_bolt_hole_of s p), w).
Proof. intros H. unfold security_bolt_hole. now run_reads H. Qed.

Lemma make_tap_handle_run spec w s :
  heap w !! spec = Some s ->
  make_tap_handle spec w = (make_tap_handle_of s, w).
Proof.
  intros H. unfold make_tap_handle, make_tap_handle_of.
  rewrite (bind_Ok _ _ _ _ _ (handle_part_run _ _ _ H)).
  rewrite (bind_Ok _ _ _ _ _ (shaft_part_run _ _ _ H)).
  cbv zeta. fold (combined_of s).
  rewrite (bind_Ok _ _ _ _ _ (intersection_edges_run _ _ _ _ H)).
  change (bd.items (edges (combined_of s)))
    with (explore_edges (combined_of s)).
  fold (selected_of s (combined_of s)).
  destruct (selected_of s (combined_of s)) as [| edge sel] eqn:Esel.
  - reflexivity.
  - cbn [length Nat.ltb Nat.leb assert_].
    rewrite (bind_Ok _ _ _ tt w); [| reflexivity].
    rewrite (bind_Ok _ _ _ _ _ (tap_interface_cuts_run _ _ _ _ H)).
    apply security_bolt_hole_run, H.
Qed.

Lemma setattr_run spec a v w s :
  heap w !! spec = Some s ->
  setattr spec a v w
  = (Ok tt, {| heap := <[spec := set a v s]> (heap w);
               events := events w |}).
Proof. intros H. unfold setattr. now rewrite H. Qed.

Lemma TapHandleSpec_new_run init w :
  TapHandleSpec_new init w
  = (Ok (fresh (dom (heap w))),
     {| heap := <[fresh (dom (heap w)) := init]> (heap w);
        events :=
          events w
          ++ [logger_info
                ("tap_square_side_length: "
                 ++ format_2f (square_side_of init))] |}).
Proof.
  unfold TapHandleSpec_new, __post_init__.
  rewrite (bind_Ok _ _ _ tt
             {| heap := <[fresh (dom (heap w)) := init]> (heap w);
                events :=
                  events w
                  ++ [logger_info
                        ("tap_square_side_length: "
                         ++ format_2f (square_side_of init))] |});
    [reflexivity |].
  rewrite (bind_Ok _ _ _ _ _
             (tap_square_side_length_run _ _ init
                (lookup_insert_eq _ _ _))).
  reflexivity.
Qed.

Lemma get_set_eq a v s : get a (set a v s) = v.
Proof. now destruct a. Qed.

Lemma fmin_idem x : fmin x x = x.
Proof. unfold fmin. now destruct (x <? x). Qed.

Lemma export_parts_app_run pre rest w :
  forallb (fun np => isinstance (snd np) [bd_Part; bd_Solid; bd_Compound])
    pre = true ->
  export_parts (pre ++ rest) w
  = export_parts rest
      {| heap := heap w; events := events w ++ exports_of pre |}.
Proof.
  revert w. induction pre as [| [name part] pre IH]; intros w Hpre.
  - cbn. rewrite app_nil_r. now destruct w.
  - cbn [forallb] in Hpre. apply andb_true_iff in Hpre as [Hpart Hpre].
    cbn [snd] in Hpart.
    cbn [app export_parts]. rewrite Hpart.
    cbn [assert_]. unfold bind at 1. cbn [ret].
    unfold bind at 1. cbn [emit].
    unfold bind at 1. cbn [emit].
    rewrite IH by exact Hpre. cbn [heap events exports_of flat_map].
    now rewrite <- !app_assoc.
Qed.

Lemma exports_of_pass pre ev :
  forallb (fun np => isinstance (snd np) [bd_Part; bd_Solid; bd_Compound])
    pre = true ->
  In ev (exports_of pre) ->
  exists part path,
    (ev = export_stl part path \/ ev = export_step part path)
    /\ isinstance part [bd_Part; bd_Solid; bd_Compound] = true.
Proof.
  induction pre as [| [name part] pre IH];
    cbn [forallb exports_of flat_map app In snd]; intros Hpre Hin; [easy |].
  apply andb_true_iff in Hpre as [Hpart Hpre].
  destruct Hin as [<- | [<- | Hin]]; eauto 6.
Qed.

(* ------------------------------------------------------------------ *)
(** ** The properties *)

(** C1.  For every live [TapHandleSpec] instance, the property
    [tap_square_side_length] returns [tap_diameter / sqrt 2] (and changes
    nothing), on a runtime whose [2 ** 0.5] is the float [sqrt 2]. *)
Theorem tap_square_side_length_sqrt2 (self : ref) (w : World)
    (s : TapHandleSpec) :
  float_pow 2 0.5 = sqrt 2 ->
  heap w !! self = Some s ->
  tap_square_side_length self w = (Ok (tap_diameter s / sqrt 2), w).
Proof.
  intros Hpow H. rewrite (tap_square_side_length_run _ _ _ H).
  unfold square_side_of. now rewrite Hpow.
Qed.

(** C2.  The list comprehension of [make_tap_handle] returns, of the edges
    the kernel enumerates for the solid [p], exactly those whose centroid
    has [|Z| < 0.2] and whose [X**2 + Y**2] lies strictly between
    [(shaft_od / 2) ** 2 - 1] and [(handle_base_diameter / 2) ** 2 + 1]. *)
Theorem intersection_edges_iff (spec : ref) (w : World) (s : TapHandleSpec)
    (p : Shape) :
  heap w !! spec = Some s ->
  exists selected,
    intersection_edges spec (bd.items (edges p)) w = (Ok selected, w)
    /\ forall edge,
         In edge selected <->
         In edge (explore_edges p)
         /\ (abs (bd.Z (center edge)) <? 0.2) = true
         /\ (float_pow (shaft_od s / 2) 2 - 1
             <? float_pow (bd.X (center edge)) 2
                + float_pow (bd.Y (center edge)) 2) = true
         /\ (float_pow (bd.X (center edge)) 2
             + float_pow (bd.Y (center edge)) 2
             <? float_pow (handle_base_diameter s / 2) 2 + 1) = true.
Proof.
  intros H. eexists. split; [apply intersection_edges_run, H |].
  intros edge. cbn [bd.items edges]. rewrite filter_In.
  unfold selects, radial2. rewrite !andb_true_iff. reflexivity.
Qed.

(** C3.  With [p] the union of handle and shaft and [selected] what the
    edge filter returns on it: [make_tap_handle] raises the bare
    [AssertionError] exactly when [selected] is empty, it raises nothing
    else, and otherwise it returns the three cuts applied to
    [p.fillet(radius=3.5, edge_list=selected)]. *)
Theorem make_tap_handle_assertion (spec : ref) (w : World)
    (s : TapHandleSpec) :
  heap w !! spec = Some s ->
  exists handle shaft selected,
    handle_part spec w = (Ok handle, w)
    /\ shaft_part spec w = (Ok shaft, w)
    /\ intersection_edges spec
         (bd.items (edges (bd.Part_None + handle + shaft)%shape)) w
       = (Ok selected, w)
    /\ (make_tap_handle spec w = (Raise (AssertionError None), w)
        <-> selected = [])
    /\ (forall e w', make_tap_handle spec w = (Raise e, w') ->
         e = AssertionError None /\ selected = [])
    /\ (selected <> [] ->
        exists square bore hole,
          make_tap_handle spec w
          = (Ok (bd.Shape_fillet (bd.Part_None + handle + shaft) 3.5 selected
                 - square - bore - hole)%shape, w)).
Proof.
  intros H. exists (handle_of s), (shaft_of s).
  exists (selected_of s (combined_of s)).
  split; [apply handle_part_run, H |].
  split; [apply shaft_part_run, H |].
  split; [apply intersection_edges_run, H |].
  rewrite (make_tap_handle_run _ _ _ H). unfold make_tap_handle_of.
  fold (combined_of s).
  destruct (selected_of s (combined_of s)) as [| edge sel].
  - split; [split; reflexivity |]. split.
    + intros e w' Heq. injection Heq as <- _. split; reflexivity.
    + intros Hne. now elim Hne.
  - split; [split; intros Habs; discriminate Habs |]. split.
    + intros e w' Habs. discriminate Habs.
    + intros _. do 3 eexists. reflexivity.
Qed.

(** C4, as the code has it.  With [handle], [shaft] and [selected] what
    the builder computes: the bolt hole is a cylinder of radius [4.9 / 2]
    and height 50, anchored at its bottom (at [Z = 0] before placement)
    and placed by [Pos(Z = -handle_t_height - 0.1)]; whenever an edge is
    selected, subtracting it is the last operation of [make_tap_handle],
    on the solid that carries the junction fillet and the socket cuts.
    The handle, top-anchored with height [handle_t_height] and then
    shifted by 0.1, reaches down to [-handle_t_height + 0.1]. *)
Theorem security_bolt_hole_placement (spec : ref) (w : World)
    (s : TapHandleSpec) :
  heap w !! spec = Some s ->
  let cylinder : Shape :=
    bd.Cylinder (4.9 / 2) 50 bde.align.ANCHOR_BOTTOM in
  let hole : Shape :=
    (bd.Pos 0 0 (- handle_t_height s - 0.1) * cylinder)%shape in
  exists handle shaft selected,
    handle_part spec w = (Ok handle, w)
    /\ shaft_part spec w = (Ok shaft, w)
    /\ intersection_edges spec
         (bd.items (edges (bd.Part_None + handle + shaft)%shape)) w
       = (Ok selected, w)
    /\ (forall p, security_bolt_hole spec p w = (Ok (p - hole)%shape, w))
    /\ (selected <> [] ->
        exists square bore,
          make_tap_handle spec w
          = (Ok (bd.Shape_fillet (bd.Part_None + handle + shaft) 3.5 selected
                 - square - bore - hole)%shape, w))
    /\ bottom_z cylinder = Some 0
    /\ bottom_z handle = Some (- handle_t_height s + 0.1).
Proof.
  intros H cylinder hole.
  exists (handle_of s), (shaft_of s), (selected_of s (combined_of s)).
  split; [apply handle_part_run, H |].
  split; [apply shaft_part_run, H |].
  split; [apply intersection_edges_run, H |].
  split; [intros p; apply security_bolt_hole_run, H |].
  split; [| split; [reflexivity | cbn; now rewrite !fmin_idem]].
  rewrite (make_tap_handle_run _ _ _ H). unfold make_tap_handle_of.
  fold (combined_of s).
  destruct (selected_of s (combined_of s)) as [| edge sel].
  - intros Hne. now elim Hne.
  - intros _. do 2 eexists. reflexivity.
Qed.

(** C5, as the code has it.  With [handle], [shaft] and [selected] what
    the builder computes: whenever an edge is selected, [make_tap_handle]
    subtracts from the solid carrying the junction fillet first the box of
    side [tap_square_side_length] and height [tap_square_length], then the
    cylinder of radius [tap_diameter / 2] and height [tap_round_length],
    both anchored at their top and placed by [Pos(Z = shaft_length)], and
    last the bolt hole.  The shaft itself reaches up to the higher of the
    cylinder's top, [shaft_length - shaft_hex_length], and the hexagon's,
    [shaft_hex_length + (shaft_length - shaft_hex_length - 0.01)]. *)
Theorem tap_interface_cuts_order (spec : ref) (w : World)
    (s : TapHandleSpec) :
  heap w !! spec = Some s ->
  exists side handle shaft selected,
    tap_square_side_length spec w = (Ok side, w)
    /\ handle_part spec w = (Ok handle, w)
    /\ shaft_part spec w = (Ok shaft, w)
    /\ intersection_edges spec
         (bd.items (edges (bd.Part_None + handle + shaft)%shape)) w
       = (Ok selected, w)
    /\ let square : Shape :=
         (bd.Pos 0 0 (shaft_length s)
          * bd.Box side side (tap_square_length s)
              bde.align.ANCHOR_TOP)%shape in
       let bore : Shape :=
         (bd.Pos 0 0 (shaft_length s)
          * bd.Cylinder (tap_diameter s / 2) (tap_round_length s)
              bde.align.ANCHOR_TOP)%shape in
       (forall p,
          tap_interface_cuts spec p w = (Ok (p - square - bore)%shape, w))
       /\ (selected <> [] ->
           exists hole,
             make_tap_handle spec w
             = (Ok (bd.Shape_fillet (bd.Part_None + handle + shaft) 3.5
                      selected
                    - square - bore - hole)%shape, w))
       /\ top_z shaft
          = Some (fmax (shaft_length s - shaft_hex_length s)
                    (shaft_hex_length s
                     + (shaft_length s - shaft_hex_length s - 0.01))).
Proof.
  intros H.
  exists (square_side_of s), (handle_of s), (shaft_of s).
  exists (selected_of s (combined_of s)).
  split; [apply tap_square_side_length_run, H |].
  split; [apply handle_part_run, H |].
  split; [apply shaft_part_run, H |].
  split; [apply intersection_edges_run, H |].
  split; [intros p; apply tap_interface_cuts_run, H |].
  split; [| reflexivity].
  rewrite (make_tap_handle_run _ _ _ H). unfold make_tap_handle_of.
  fold (combined_of s).
  destruct (selected_of s (combined_of s)) as [| edge sel].
  - intros Hne. now elim Hne.
  - intros _. eexists. reflexivity.
Qed.


(** C7.  The export loop checks a value before exporting it: when the
    entries before [(name, part)] pass the [isinstance] check and [part]
    does not, the loop raises [AssertionError] with the message made of
    [name] and [type(part)], having exported the earlier entries only;
    none of these exports is of [part]. *)
Theorem export_parts_type_check (pre post : list (string * PyObject))
    (name : string) (part : PyObject) (w : World) :
  forallb (fun np => isinstance (snd np) [bd_Part; bd_Solid; bd_Compound])
    pre = true ->
  isinstance part [bd_Part; bd_Solid; bd_Compound] = false ->
  export_parts (pre ++ (name, part) :: post) w
  = (Raise (AssertionError
              (Some (name ++ " is not an expected type ("
                     ++ class_str (type part) ++ ")")%string)),
     {| heap := heap w; events := events w ++ exports_of pre |})
  /\ forall path,
       ~ In (export_stl part path) (exports_of pre)
       /\ ~ In (export_step part path) (exports_of pre).
Proof.
  intros Hpre Hpart. split.
  - rewrite (export_parts_app_run _ _ _ Hpre).
    cbn [export_parts]. rewrite Hpart. reflexivity.
  - intros path; split; intros Hin;
      destruct (exports_of_pass _ _ Hpre Hin) as (part' & path' & Hev & Hok);
      destruct Hev as [Hev | Hev]; inversion Hev; subst part';
      congruence.
Qed.

(** C9.  [make_tap_handle] leaves the world as it found it: the instance
    behind the reference has every field as before the call. *)
Theorem make_tap_handle_frame (spec : ref) (w : World) (s : TapHandleSpec) :
  heap w !! spec = Some s ->
  snd (make_tap_handle spec w) = w
  /\ exists s',
       heap (snd (make_tap_handle spec w)) !! spec = Some s'
       /\ forall a, get a s' = get a s.
Proof.
  intros H. rewrite (make_tap_handle_run _ _ _ H). cbn [snd].
  split; [reflexivity |]. now exists s.
Qed.

(** C10.  Assignment to a field of a live instance succeeds and is seen by
    the next read; after [s.tap_diameter = d] the property
    [tap_square_side_length] returns [d / sqrt 2], whatever the instance
    held before and also when it was constructed with another diameter (on
    a runtime whose [2 ** 0.5] is the float [sqrt 2]). *)
Theorem tap_square_side_length_recomputed (spec : ref) (w : World)
    (s : TapHandleSpec) (d : float) :
  float_pow 2 0.5 = sqrt 2 ->
  heap w !! spec = Some s ->
  (forall a v,
     (do! setattr spec a v in getattr spec a) w
     = (Ok v, {| heap := <[spec := set a v s]> (heap w);
                 events := events w |}))
  /\ (do! setattr spec attr.tap_diameter d in
       tap_square_side_length spec) w
     = (Ok (d / sqrt 2),
        {| heap := <[spec := set attr.tap_diameter d s]> (heap w);
           events := events w |})
  /\ (forall init w0,
        fst ((let! fresh_spec := TapHandleSpec_new init in
              do! setattr fresh_spec attr.tap_diameter d in
              tap_square_side_length fresh_spec) w0)
        = Ok (d / sqrt 2)).
Proof.
  intros Hpow H. split; [| split].
  - intros a v. rewrite (bind_Ok _ _ _ _ _ (setattr_run _ _ _ _ _ H)).
    unfold getattr. cbn [heap]. rewrite lookup_insert_eq.
    now rewrite get_set_eq.
  - rewrite (bind_Ok _ _ _ _ _ (setattr_run _ _ _ _ _ H)).
    rewrite (tap_square_side_length_run spec _ (set attr.tap_diameter d s));
      [| cbn [heap]; apply lookup_insert_eq].
    unfold square_side_of. rewrite Hpow. reflexivity.
  - intros init w0.
    rewrite (bind_Ok _ _ _ _ _ (TapHandleSpec_new_run init w0)).
    rewrite (bind_Ok _ _ _ _ _
               (setattr_run _ attr.tap_diameter d _ init
                  (lookup_insert_eq _ _ _))).
    rewrite (tap_square_side_length_run _ _ (set attr.tap_diameter d init));
      [| cbn [heap]; apply lookup_insert_eq].
    unfold square_side_of. rewrite Hpow. reflexivity.
Qed.

(* ------------------------------------------------------------------ *)
(** ** The rest of the script

    The handle block, the order of the selected edges, the exclusive
    bounds of the selection band, assignment followed by a build, the
    constructor, the export loop as a whole and the [__main__] block. *)

(** *** The order [<] of the floats *)

Lemma SFltb_trans a b c :
  SFltb a b = true -> SFltb b c = true -> SFltb a c = true.
Proof.
  unfold SFltb.
  destruct a as [sa | sa | | sa ma ea], b as [sb | sb | | sb mb eb],
    c as [sc | sc | | sc mc ec]; cbn;
    repeat match goal with sign : bool |- _ => destruct sign end; cbn;
    try discriminate; try reflexivity;
    change (Pos.compare_cont Eq ma mb) with (Pos.compare ma mb);
    change (Pos.compare_cont Eq mb mc) with (Pos.compare mb mc);
    change (Pos.compare_cont Eq ma mc) with (Pos.compare ma mc);
    destruct (Z.compare_spec ea eb), (Z.compare_spec eb ec),
      (Z.compare_spec ea ec);
    try discriminate; try reflexivity; try lia;
    destruct (Pos.compare_spec ma mb), (Pos.compare_spec mb mc),
      (Pos.compare_spec ma mc);
    cbn; try discriminate; try reflexivity; lia.
Qed.

Lemma SFltb_irrefl a : SFltb a a = false.
Proof.
  unfold SFltb. destruct a as [sign | sign | | sign m e]; cbn;
    try destruct sign; try reflexivity; rewrite Z.compare_refl;
    change (Pos.compare_cont Eq m m) with (Pos.compare m m);
    now rewrite Pos.compare_refl.
Qed.

Lemma ltb_trans (x y z : float) :
  (x <? y) = true -> (y <? z) = true -> (x <? z) = true.
Proof. rewrite !ltb_spec. apply SFltb_trans. Qed.

Lemma ltb_irrefl (x : float) : (x <? x) = false.
Proof. rewrite ltb_spec. apply SFltb_irrefl. Qed.

(** *** Helper lemmas *)

Lemma filter_sublist {A} (f : A -> bool) (l : list A) :
  List.filter f l `sublist_of` l.
Proof.
  induction l as [| x l IH]; cbn; [constructor |].
  destruct (f x); now constructor.
Qed.

Lemma filter_none {A} (f : A -> bool) (l : list A) :
  (forall x, f x = false) -> List.filter f l = [].
Proof.
  intros Hf. induction l as [| x l IH]; cbn; [reflexivity |].
  now rewrite Hf.
Qed.

Lemma selects_band s edge :
  selects s edge = true ->
  (float_pow (shaft_od s / 2) 2 - 1
   <? float_pow (handle_base_diameter s / 2) 2 + 1) = true.
Proof.
  unfold selects. rewrite !andb_true_iff. intros (_ & Hlo & Hhi).
  exact (ltb_trans _ _ _ Hlo Hhi).
Qed.

Lemma get_set_ne a b v s : attr.eqb a b = false -> get b (set a v s) = get b s.
Proof. destruct a, b; cbn; intros Hab; first [discriminate | reflexivity]. Qed.

(** X1.  The handle: the union, starting from the empty part, of the
    cylinder of radius [handle_base_diameter / 2] and of the boxes
    [handle_t_length x handle_t_width] and
    [handle_t_width x handle_t_length_2], all three of height
    [handle_t_height] and anchored at their top; filleted with radius 4.5
    on every edge the kernel enumerates for that union, then moved by
    [Pos(Z=0.1)].  The edges of its union with the shaft are the ones
    filtered, and when one is selected this union is the solid
    [make_tap_handle] fillets. *)
Theorem handle_part_shape (spec : ref) (w : World) (s : TapHandleSpec) :
  heap w !! spec = Some s ->
  let union : Shape :=
    (bd.Part_None
     + bd.Cylinder (handle_base_diameter s / 2) (handle_t_height s)
         bde.align.ANCHOR_TOP
     + bd.Box (handle_t_length s) (handle_t_width s) (handle_t_height s)
         bde.align.ANCHOR_TOP
     + bd.Box (handle_t_width s) (handle_t_length_2 s) (handle_t_height s)
         bde.align.ANCHOR_TOP)%shape in
  let handle : Shape :=
    (bd.Pos 0 0 0.1 * bd.Shape_fillet union 4.5 (explore_edges union))%shape in
  handle_part spec w = (Ok handle, w)
  /\ exists shaft selected,
       shaft_part spec w = (Ok shaft, w)
       /\ intersection_edges spec
            (bd.items (edges (bd.Part_None + handle + shaft)%shape)) w
          = (Ok selected, w)
       /\ (selected = [] ->
           make_tap_handle spec w = (Raise (AssertionError None), w))
       /\ (selected <> [] ->
           exists square bore hole,
             make_tap_handle spec w
             = (Ok (bd.Shape_fillet (bd.Part_None + handle + shaft) 3.5
                      selected
                    - square - bore - hole)%shape, w)).
Proof.
  intros H union handle. split; [apply handle_part_run, H |].
  exists (shaft_of s), (selected_of s (combined_of s)).
  split; [apply shaft_part_run, H |].
  split; [apply intersection_edges_run, H |].
  rewrite (make_tap_handle_run _ _ _ H). unfold make_tap_handle_of.
  fold (combined_of s).
  destruct (selected_of s (combined_of s)) as [| edge sel]; split.
  - reflexivity.
  - intros Hne. now elim Hne.
  - intros Habs. discriminate Habs.
  - intros _. do 3 eexists. reflexivity.
Qed.

(** X2.  The comprehension keeps the kernel's order: what it returns is a
    sublist of the enumeration (no edge added, repeated or moved), so it is
    never longer than it. *)
Theorem intersection_edges_sublist (spec : ref) (w : World)
    (s : TapHandleSpec) (p : Shape) :
  heap w !! spec = Some s ->
  exists selected,
    intersection_edges spec (bd.items (edges p)) w = (Ok selected, w)
    /\ selected `sublist_of` explore_edges p
    /\ (length selected <= length (explore_edges p))%nat.
Proof.
  intros H. eexists. split; [apply intersection_edges_run, H |].
  cbn [bd.items edges].
  split; [apply filter_sublist | apply sublist_length, filter_sublist].
Qed.

(** X3.  An empty band stops the builder: when [(shaft_od / 2) ** 2 - 1]
    is not below [(handle_base_diameter / 2) ** 2 + 1], no edge can be
    selected and [make_tap_handle] raises its [AssertionError], whatever
    the kernel enumerates. *)
Theorem make_tap_handle_empty_band (spec : ref) (w : World)
    (s : TapHandleSpec) :
  heap w !! spec = Some s ->
  (float_pow (shaft_od s / 2) 2 - 1
   <? float_pow (handle_base_diameter s / 2) 2 + 1) = false ->
  make_tap_handle spec w = (Raise (AssertionError None), w).
Proof.
  intros H Hband. rewrite (make_tap_handle_run _ _ _ H).
  unfold make_tap_handle_of, selected_of.
  rewrite filter_none; [reflexivity |].
  intros edge. destruct (selects s edge) eqn:Hsel; [| reflexivity].
  apply selects_band in Hsel. congruence.
Qed.

(** X4.  The three bounds are exclusive: an edge whose centroid has
    [|Z|] equal to 0.2, or [X**2 + Y**2] equal to the lower or to the upper
    bound of the band, is not selected. *)
Theorem intersection_edges_bounds_exclusive (spec : ref) (w : World)
    (s : TapHandleSpec) (p : Shape) (edge : Edge) :
  heap w !! spec = Some s ->
  abs (bd.Z (center edge)) = 0.2
  \/ float_pow (bd.X (center edge)) 2 + float_pow (bd.Y (center edge)) 2
     = float_pow (shaft_od s / 2) 2 - 1
  \/ float_pow (bd.X (center edge)) 2 + float_pow (bd.Y (center edge)) 2
     = float_pow (handle_base_diameter s / 2) 2 + 1 ->
  exists selected,
    intersection_edges spec (bd.items (edges p)) w = (Ok selected, w)
    /\ ~ In edge selected.
Proof.
  intros H Hon. eexists. split; [apply intersection_edges_run, H |].
  rewrite filter_In. unfold selects, radial2. rewrite !andb_true_iff.
  intros (_ & Hz & Hlo & Hhi).
  destruct Hon as [Hon | [Hon | Hon]].
  - rewrite Hon, ltb_irrefl in Hz. discriminate Hz.
  - rewrite Hon, ltb_irrefl in Hlo. discriminate Hlo.
  - rewrite Hon, ltb_irrefl in Hhi. discriminate Hhi.
Qed.

Lemma setattr_then_run {A} spec a v w s (k : M A) :
  heap w !! spec = Some s ->
  (do! setattr spec a v in k) w
  = k {| heap := <[spec := set a v s]> (heap w); events := events w |}.
Proof.
  intros H. exact (bind_Ok _ (fun _ => k) _ _ _ (setattr_run _ _ _ _ _ H)).
Qed.

Lemma make_tap_handle_after_setattr spec a v w s :
  heap w !! spec = Some s ->
  (do! setattr spec a v in make_tap_handle spec) w
  = (make_tap_handle_of (set a v s),
     {| heap := <[spec := set a v s]> (heap w); events := events w |}).
Proof.
  intros H. rewrite (setattr_then_run _ _ _ _ _ _ H).
  apply make_tap_handle_run. cbn [heap]. apply lookup_insert_eq.
Qed.

(** X5.  The three fields of the tap interface play no part in the
    junction: assigning [tap_diameter], [tap_square_length] or
    [tap_round_length] before the build changes neither whether the
    assertion fails nor the filleted solid and the bolt hole; only the two
    socket cuts can differ. *)
Theorem tap_fields_leave_junction (spec : ref) (w : World)
    (s : TapHandleSpec) (a : attr.t) (v : float) :
  heap w !! spec = Some s ->
  a = attr.tap_diameter \/ a = attr.tap_square_length
  \/ a = attr.tap_round_length ->
  let w' :=
    {| heap := <[spec := set a v s]> (heap w); events := events w |} in
  (make_tap_handle spec w = (Raise (AssertionError None), w)
   /\ (do! setattr spec a v in make_tap_handle spec) w
      = (Raise (AssertionError None), w'))
  \/ exists p selected hole square bore square' bore',
       make_tap_handle spec w
       = (Ok (bd.Shape_fillet p 3.5 selected
              - square - bore - hole)%shape, w)
       /\ (do! setattr spec a v in make_tap_handle spec) w
          = (Ok (bd.Shape_fillet p 3.5 selected
                 - square' - bore' - hole)%shape, w').
Proof.
  intros H Ha w'. rewrite (make_tap_handle_run _ _ _ H).
  rewrite (make_tap_handle_after_setattr _ _ _ _ _ H). fold w'.
  unfold make_tap_handle_of.
  assert (combined_of (set a v s) = combined_of s) as ->
    by (destruct Ha as [-> | [-> | ->]]; reflexivity).
  assert (selected_of (set a v s) (combined_of s)
          = selected_of s (combined_of s)) as ->
    by (destruct Ha as [-> | [-> | ->]]; reflexivity).
  destruct (selected_of s (combined_of s)) as [| edge sel]; [now left |].
  right. exists (combined_of s), (edge :: sel).
  destruct Ha as [-> | [-> | ->]]; do 5 eexists; split; reflexivity.
Qed.

(** X6.  The builder reads the instance when it is called.  With
    [handle], [shaft] and [selected] what it computes before the
    assignment [spec.tap_diameter = d]: when no edge is selected the build
    raises before and after the assignment; when one is, both builds
    return the solid with the junction fillet, cut by the socket and by
    the same bolt hole, and after the assignment the square socket has
    side [d / 2 ** 0.5] and the relief bore radius [d / 2]. *)
Theorem make_tap_handle_after_assignment (spec : ref) (w : World)
    (s : TapHandleSpec) (d : float) :
  heap w !! spec = Some s ->
  let w' :=
    {| heap := <[spec := set attr.tap_diameter d s]> (heap w);
       events := events w |} in
  let square' : Shape :=
    (bd.Pos 0 0 (shaft_length s)
     * bd.Box (d / float_pow 2 0.5) (d / float_pow 2 0.5)
         (tap_square_length s) bde.align.ANCHOR_TOP)%shape in
  let bore' : Shape :=
    (bd.Pos 0 0 (shaft_length s)
     * bd.Cylinder (d / 2) (tap_round_length s)
         bde.align.ANCHOR_TOP)%shape in
  exists handle shaft selected,
    handle_part spec w = (Ok handle, w)
    /\ shaft_part spec w = (Ok shaft, w)
    /\ intersection_edges spec
         (bd.items (edges (bd.Part_None + handle + shaft)%shape)) w
       = (Ok selected, w)
    /\ (selected = [] ->
        make_tap_handle spec w = (Raise (AssertionError None), w)
        /\ (do! setattr spec attr.tap_diameter d in make_tap_handle spec) w
           = (Raise (AssertionError None), w'))
    /\ (selected <> [] ->
        exists square bore hole,
          make_tap_handle spec w
          = (Ok (bd.Shape_fillet (bd.Part_None + handle + shaft) 3.5 selected
                 - square - bore - hole)%shape, w)
          /\ (do! setattr spec attr.tap_diameter d in
               make_tap_handle spec) w
             = (Ok (bd.Shape_fillet (bd.Part_None + handle + shaft) 3.5
                      selected
                    - square' - bore' - hole)%shape, w')).
Proof.
  intros H w' square' bore'.
  exists (handle_of s), (shaft_of s), (selected_of s (combined_of s)).
  split; [apply handle_part_run, H |].
  split; [apply shaft_part_run, H |].
  split; [apply intersection_edges_run, H |].
  rewrite (make_tap_handle_run _ _ _ H).
  rewrite (make_tap_handle_after_setattr _ _ _ _ _ H). fold w'.
  unfold make_tap_handle_of.
  change (combined_of (set attr.tap_diameter d s)) with (combined_of s).
  change (selected_of (set attr.tap_diameter d s) (combined_of s))
    with (selected_of s (combined_of s)).
  fold (combined_of s).
  destruct (selected_of s (combined_of s)) as [| edge sel]; split.
  - intros _. split; reflexivity.
  - intros Hne. now elim Hne.
  - intros Habs. discriminate Habs.
  - intros _. do 3 eexists. split; reflexivity.
Qed.

(** X7.  [TapHandleSpec(...)] never fails and validates nothing: for any
    field values it returns a reference that was not live, now holding
    exactly these values; every other reference holds what it held, and
    one line is logged, the side length for the diameter given. *)
Theorem TapHandleSpec_new_fresh (init : TapHandleSpec) (w : World) :
  exists self w',
    TapHandleSpec_new init w = (Ok self, w')
    /\ heap w !! self = None
    /\ heap w' !! self = Some init
    /\ (forall other, other <> self -> heap w' !! other = heap w !! other)
    /\ events w'
       = events w
         ++ [logger_info
               ("tap_square_side_length: "
                ++ format_2f (tap_diameter init / float_pow 2 0.5))].
Proof.
  do 2 eexists. split; [apply TapHandleSpec_new_run |].
  cbn [heap events]. split; [| split; [| split]].
  - apply not_elem_of_dom, is_fresh.
  - apply lookup_insert_eq.
  - intros other Hne. now apply lookup_insert_ne.
  - reflexivity.
Qed.

(** X8.  Two instances share nothing: after constructing two and
    assigning [tap_diameter] on the first, the property of the first
    follows the assignment and the property of the second is still the one
    of its own diameter. *)
Theorem instances_do_not_alias (init1 init2 : TapHandleSpec) (d : float)
    (w : World) :
  fst ((let! first := TapHandleSpec_new init1 in
        let! second := TapHandleSpec_new init2 in
        do! setattr first attr.tap_diameter d in
        let! side1 := tap_square_side_length first in
        let! side2 := tap_square_side_length second in
        ret (side1, side2)) w)
  = Ok (d / float_pow 2 0.5, tap_diameter init2 / float_pow 2 0.5).
Proof.
  rewrite (bind_Ok _ _ _ _ _ (TapHandleSpec_new_run init1 w)).
  rewrite (bind_Ok _ _ _ _ _ (TapHandleSpec_new_run init2 _)).
  cbn [heap events].
  set (first := fresh (dom (heap w))).
  set (second := fresh (dom (<[first := init1]> (heap w)))).
  assert (first <> second) as Hne.
  { intros Heq. apply (is_fresh (dom (<[first := init1]> (heap w)))).
    fold second. rewrite <- Heq. apply elem_of_dom.
    rewrite lookup_insert_eq. eauto. }
  assert (<[second := init2]> (<[first := init1]> (heap w)) !! first
          = Some init1) as Hfirst
    by (rewrite lookup_insert_ne by congruence; apply lookup_insert_eq).
  rewrite (setattr_then_run first attr.tap_diameter d _ init1)
    by (cbn [heap]; exact Hfirst).
  rewrite (bind_Ok _ _ _ _ _
             (tap_square_side_length_run first _
                (set attr.tap_diameter d init1) (lookup_insert_eq _ _ _))).
  rewrite (bind_Ok _ _ _ (square_side_of init2)
             {| heap :=
                  <[first := set attr.tap_diameter d init1]>
                    (<[second := init2]> (<[first := init1]> (heap w)));
                events :=
                  (events w
                   ++ [logger_info
                         ("tap_square_side_length: "
                          ++ format_2f (square_side_of init1))])
                  ++ [logger_info
                        ("tap_square_side_length: "
                         ++ format_2f (square_side_of init2))] |}).
  - reflexivity.
  - apply tap_square_side_length_run. cbn [heap].
    rewrite lookup_insert_ne by congruence. apply lookup_insert_eq.
Qed.

(** X9.  Assignment touches one field of one instance: after
    [spec.a = v] a read of another field [b] of [spec] returns what it
    held, and every other reference holds what it held. *)
Theorem setattr_other_fields (spec : ref) (w : World) (s : TapHandleSpec)
    (a b : attr.t) (v : float) :
  heap w !! spec = Some s ->
  attr.eqb a b = false ->
  exists w',
    (do! setattr spec a v in getattr spec b) w = (Ok (get b s), w')
    /\ forall other, other <> spec -> heap w' !! other = heap w !! other.
Proof.
  intros H Hab. eexists. split.
  - rewrite (setattr_then_run _ _ _ _ _ _ H).
    unfold getattr. cbn [heap]. rewrite lookup_insert_eq.
    now rewrite (get_set_ne _ _ _ _ Hab).
  - intros other Hne. cbn [heap]. now apply lookup_insert_ne.
Qed.

Lemma export_parts_cons_pass name part rest w :
  isinstance part [bd_Part; bd_Solid; bd_Compound] = true ->
  export_parts ((name, part) :: rest) w
  = export_parts rest
      {| heap := heap w;
         events := events w ++ exports_of [(name, part)] |}.
Proof.
  intros Hpart.
  exact (export_parts_app_run [(name, part)] rest w
           (eq_trans (andb_true_r _) Hpart)).
Qed.

Lemma export_parts_heap parts w :
  heap (snd (export_parts parts w)) = heap w.
Proof.
  revert w. induction parts as [| [name part] rest IH]; intros w;
    [reflexivity |].
  destruct (isinstance part [bd_Part; bd_Solid; bd_Compound]) eqn:Hpart.
  - rewrite (export_parts_cons_pass _ _ _ _ Hpart). now rewrite IH.
  - cbn [export_parts]. now rewrite Hpart.
Qed.

Lemma main_run w :
  main w
  = (let! part := make_tap_handle (fresh (dom (heap w))) in
     do! emit (logger_info "Showing CAD model(s)") in
     do! emit (mkdir export_folder) in
     export_parts [("tap_handle_m3"%string, show part)])
      {| heap := <[fresh (dom (heap w)) := TapHandleSpec_defaults]> (heap w);
         events :=
           events w
           ++ [logger_info
                 ("tap_square_side_length: "
                  ++ format_2f (3.0 / float_pow 2 0.5))] |}.
Proof.
  unfold main. now rewrite (bind_Ok _ _ _ _ _ (TapHandleSpec_new_run _ _)).
Qed.

Lemma make_tap_handle_split spec w s :
  heap w !! spec = Some s ->
  make_tap_handle spec w = (fst (make_tap_handle spec w), w).
Proof. intros H. now rewrite (make_tap_handle_run _ _ _ H). Qed.

(** X10.  When every value of the map passes the check, the loop returns
    normally, touches no instance and appends, entry by entry in the
    order of the map, the STL export to [str(folder / f"{name}.stl")] and
    then the STEP export to [str(folder / f"{name}.step")]: two exports
    per entry. *)
Theorem export_parts_all_pass (parts : list (string * PyObject))
    (w : World) :
  forallb (fun np => isinstance (snd np) [bd_Part; bd_Solid; bd_Compound])
    parts = true ->
  export_parts parts w
  = (Ok tt,
     {| heap := heap w;
        events :=
          events w
          ++ flat_map
               (fun '(name, part) =>
                  [export_stl part
                     (joinpath export_folder (name ++ ".stl")%string);
                   export_step part
                     (joinpath export_folder (name ++ ".step")%string)])
               parts |})
  /\ length (events (snd (export_parts parts w)))
     = (length (events w) + 2 * length parts)%nat.
Proof.
  intros Hall.
  assert (export_parts parts w
          = (Ok tt, {| heap := heap w;
                       events := events w ++ exports_of parts |})) as Hrun.
  { rewrite <- (app_nil_r parts) at 1.
    now rewrite (export_parts_app_run _ _ _ Hall). }
  split; [exact Hrun |].
  rewrite Hrun. cbn [snd events]. rewrite length_app. f_equal.
  clear. unfold exports_of.
  induction parts as [| [name part] rest IH]; [reflexivity |].
  cbn [flat_map app length]. rewrite IH. lia.
Qed.

(** X11.  For any map, the loop writes both files of each entry up to the
    first value that fails the check and nothing from there on: it
    returns normally when there is no such value and otherwise raises the
    [AssertionError] naming that entry.  No instance is touched. *)
Theorem export_parts_until_failure (parts : list (string * PyObject))
    (w : World) :
  exists done rest,
    parts = done ++ rest
    /\ forallb (fun np => isinstance (snd np) [bd_Part; bd_Solid; bd_Compound])
         done = true
    /\ snd (export_parts parts w)
       = {| heap := heap w; events := events w ++ exports_of done |}
    /\ match rest with
       | [] => fst (export_parts parts w) = Ok tt
       | (name, part) :: _ =>
           isinstance part [bd_Part; bd_Solid; bd_Compound] = false
           /\ fst (export_parts parts w)
              = Raise (AssertionError
                         (Some (name ++ " is not an expected type ("
                                ++ class_str (type part) ++ ")")%string))
       end.
Proof.
  revert w. induction parts as [| [name part] tail IH]; intros w.
  - exists [], []. cbn. rewrite app_nil_r. now destruct w.
  - destruct (isinstance part [bd_Part; bd_Solid; bd_Compound]) eqn:Hpart.
    + rewrite (export_parts_cons_pass _ _ _ _ Hpart).
      destruct (IH {| heap := heap w;
                      events := events w ++ exports_of [(name, part)] |})
        as (done & rest & -> & Hdone & Hsnd & Hfst).
      exists ((name, part) :: done), rest.
      split; [reflexivity |].
      split; [cbn [forallb snd]; rewrite Hpart; exact Hdone |].
      split; [| exact Hfst].
      rewrite Hsnd. cbn [heap events]. now rewrite <- app_assoc.
    + exists [], ((name, part) :: tail).
      split; [reflexivity |]. split; [reflexivity |].
      cbn [export_parts]. rewrite Hpart. cbn. rewrite app_nil_r.
      split; [now destruct w | split; reflexivity].
Qed.

(** X12.  A failed build writes nothing: when [make_tap_handle] raises on
    the instance [__main__] constructs, the script ends with that
    exception, which is the bare [AssertionError], having only logged the
    construction: no folder, no export. *)
Theorem main_build_failure (w : World) (e : exn) :
  let self := fresh (dom (heap w)) in
  let w1 :=
    {| heap := <[self := TapHandleSpec_defaults]> (heap w);
       events :=
         events w
         ++ [logger_info
               ("tap_square_side_length: "
                ++ format_2f (3.0 / float_pow 2 0.5))] |} in
  fst (make_tap_handle self w1) = Raise e ->
  main w = (Raise e, w1) /\ e = AssertionError None.
Proof.
  intros self w1 Hbuild. rewrite main_run. fold self. fold w1.
  assert (heap w1 !! self = Some TapHandleSpec_defaults) as Hlive
    by apply lookup_insert_eq.
  pose proof (make_tap_handle_split _ _ _ Hlive) as Hsplit.
  rewrite Hbuild in Hsplit.
  split.
  - unfold bind at 1. now rewrite Hsplit.
  - rewrite (make_tap_handle_run _ _ _ Hlive) in Hbuild.
    unfold make_tap_handle_of in Hbuild. cbn [fst] in Hbuild.
    destruct (selected_of _ _); [now injection Hbuild | discriminate Hbuild].
Qed.

(** X13.  A successful run: when the build returns [part] and
    [show(part)] passes the check, the script returns normally and its
    events are, in this order, the construction log, "Showing CAD
    model(s)", the creation of the folder, the STL export and the STEP
    export of [show(part)] under the name [tap_handle_m3]. *)
Theorem main_success (w : World) (part : Shape) :
  let self := fresh (dom (heap w)) in
  let w1 :=
    {| heap := <[self := TapHandleSpec_defaults]> (heap w);
       events :=
         events w
         ++ [logger_info
               ("tap_square_side_length: "
                ++ format_2f (3.0 / float_pow 2 0.5))] |} in
  fst (make_tap_handle self w1) = Ok part ->
  isinstance (show part) [bd_Part; bd_Solid; bd_Compound] = true ->
  main w
  = (Ok tt,
     {| heap := heap w1;
        events :=
          events w1
          ++ [logger_info "Showing CAD model(s)";
              mkdir export_folder;
              export_stl (show part)
                (joinpath export_folder "tap_handle_m3.stl");
              export_step (show part)
                (joinpath export_folder "tap_handle_m3.step")] |}).
Proof.
  intros self w1 Hbuild Hshow. rewrite main_run. fold self. fold w1.
  assert (heap w1 !! self = Some TapHandleSpec_defaults) as Hlive
    by apply lookup_insert_eq.
  pose proof (make_tap_handle_split _ _ _ Hlive) as Hsplit.
  rewrite Hbuild in Hsplit.
  rewrite (bind_Ok _ _ _ _ _ Hsplit).
  unfold bind at 1. cbn [emit]. unfold bind at 1. cbn [emit].
  rewrite (export_parts_cons_pass _ _ _ _ Hshow).
  cbn [export_parts ret heap events exports_of flat_map app].
  now rewrite <- !app_assoc.
Qed.

(** X14.  When the build returns [part] but [show(part)] fails the check,
    the script raises the [AssertionError] naming [tap_handle_m3] and the
    type of [show(part)]; the folder has been created and nothing is
    exported. *)
Theorem main_unexpected_type (w : World) (part : Shape) :
  let self := fresh (dom (heap w)) in
  let w1 :=
    {| heap := <[self := TapHandleSpec_defaults]> (heap w);
       events :=
         events w
         ++ [logger_info
               ("tap_square_side_length: "
                ++ format_2f (3.0 / float_pow 2 0.5))] |} in
  fst (make_tap_handle self w1) = Ok part ->
  isinstance (show part) [bd_Part; bd_Solid; bd_Compound] = false ->
  main w
  = (Raise (AssertionError
              (Some ("tap_handle_m3 is not an expected type ("
                     ++ class_str (type (show part)) ++ ")")%string)),
     {| heap := heap w1;
        events :=
          events w1
          ++ [logger_info "Showing CAD model(s)"; mkdir export_folder] |}).
Proof.
  intros self w1 Hbuild Hshow. rewrite main_run. fold self. fold w1.
  assert (heap w1 !! self = Some TapHandleSpec_defaults) as Hlive
    by apply lookup_insert_eq.
  pose proof (make_tap_handle_split _ _ _ Hlive) as Hsplit.
  rewrite Hbuild in Hsplit.
  rewrite (bind_Ok _ _ _ _ _ Hsplit).
  unfold bind at 1. cbn [emit]. unfold bind at 1. cbn [emit].
  cbn [export_parts]. rewrite Hshow.
  cbn [assert_ bind raise heap events]. now rewrite <- !app_assoc.
Qed.

(** X15.  However the script ends, what it does to the instances is to
    add the one it constructs, with the default field values: every
    instance that was live is as it was. *)
Theorem main_heap (w : World) :
  heap (snd (main w))
  = <[fresh (dom (heap w)) := TapHandleSpec_defaults]> (heap w).
Proof.
  rewrite main_run.
  set (self := fresh (dom (heap w))).
  set (w1 := {| heap := <[self := TapHandleSpec_defaults]> (heap w);
                events := _ |}).
  assert (heap w1 !! self = Some TapHandleSpec_defaults) as Hlive
    by apply lookup_insert_eq.
  unfold bind at 1. rewrite (make_tap_handle_run _ _ _ Hlive).
  destruct (make_tap_handle_of TapHandleSpec_defaults) as [part | e];
    [| reflexivity].
  unfold bind at 1. cbn [emit]. unfold bind at 1. cbn [emit].
  now rewrite export_parts_heap.
Qed.

End Program.

(* ------------------------------------------------------------------ *)
(** ** The program on the stand-in environment *)

Section Runs.

Local Open Scope float_scope.

(** The world holding the one instance of [Example.heap]. *)
Local Abbreviation world :=
  (mkWorld (PyObject:=Example.PyObject) Example.heap []).

Local Abbreviation make_tap_handle_ex :=
  (make_tap_handle Example.center Example.explore_edges Example.float_pow).

(** The whole script: one instance is made and logged, the solid is built
    and written to the two files. *)
Example main_runs :
  exists part,
    main Example.center Example.explore_edges Example.float_pow
      Example.format_2f Example.type Example.issubclass Example.class_str
      Example.bd_Part Example.bd_Solid Example.bd_Compound Example.show
      Example.export_folder Example.joinpath (mkWorld ∅ [])
    = (Ok tt,
       {| heap := Example.heap;
          events :=
            [logger_info "tap_square_side_length: 2.12";
             logger_info "Showing CAD model(s)";
             mkdir "build";
             export_stl part "build/tap_handle_m3.stl";
             export_step part "build/tap_handle_m3.step"] |}).
Proof. eexists. vm_compute. reflexivity. Qed.

(** Without an edge on the junction ring the builder stops at its
    assertion. *)
Example make_tap_handle_no_ring :
  make_tap_handle Example.center Example.explore_edges_no_ring
    Example.float_pow Example.spec world
  = (Raise (AssertionError None), world).
Proof. reflexivity. Qed.

Lemma tap_square_side_length_sqrt2_witness :
  Example.float_pow 2 0.5 = sqrt 2
  /\ Example.heap !! Example.spec = Some TapHandleSpec_defaults
  /\ tap_square_side_length Example.float_pow Example.spec world
     = (Ok (3 / sqrt 2), world).
Proof.
  split; [reflexivity |]. split; [reflexivity |].
  apply (tap_square_side_length_sqrt2 Example.float_pow Example.spec world
           TapHandleSpec_defaults); reflexivity.
Defined.

Lemma intersection_edges_iff_witness :
  Example.heap !! Example.spec = Some TapHandleSpec_defaults
  /\ exists selected,
       intersection_edges Example.center Example.float_pow Example.spec
         (bd.items (edges Example.explore_edges bd.Part_None)) world
       = (Ok selected, world)
       /\ In Example.ring_edge selected.
Proof.
  split; [reflexivity |].
  destruct (intersection_edges_iff Example.center Example.explore_edges
              Example.float_pow Example.spec world TapHandleSpec_defaults
              bd.Part_None eq_refl) as (selected & Hrun & Hiff).
  exists selected. split; [exact Hrun |].
  apply Hiff. split; [left; reflexivity |]. repeat split.
Defined.

Lemma make_tap_handle_assertion_witness :
  Example.heap !! Example.spec = Some TapHandleSpec_defaults
  /\ exists handle shaft square bore hole,
       make_tap_handle_ex Example.spec world
       = (Ok (bd.Shape_fillet (bd.Part_None + handle + shaft) 3.5
                [Example.ring_edge]
              - square - bore - hole)%shape, world).
Proof.
  split; [reflexivity |].
  destruct (make_tap_handle_assertion Example.center Example.explore_edges
              Example.float_pow Example.spec world TapHandleSpec_defaults
              eq_refl)
    as (handle & shaft & selected & _ & _ & Hsel & _ & _ & Hok).
  vm_compute in Hsel. injection Hsel as <-.
  destruct Hok as (square & bore & hole & Hrun); [discriminate |].
  exists handle, shaft, square, bore, hole. exact Hrun.
Defined.

Lemma security_bolt_hole_placement_witness :
  Example.heap !! Example.spec = Some TapHandleSpec_defaults
  /\ exists handle shaft square bore,
       make_tap_handle_ex Example.spec world
       = (Ok (bd.Shape_fillet (bd.Part_None + handle + shaft) 3.5
                [Example.ring_edge]
              - square - bore
              - bd.Pos 0 0 (-10.1)
                * bd.Cylinder (4.9 / 2) 50 bde.align.ANCHOR_BOTTOM)%shape,
          world)
       /\ bottom_z handle = Some (- 10 + 0.1).
Proof.
  split; [reflexivity |].
  pose proof (security_bolt_hole_placement Example.center
                Example.explore_edges Example.float_pow Example.spec world
                TapHandleSpec_defaults eq_refl) as H.
  cbv zeta in H.
  destruct H as (handle & shaft & selected & _ & _ & Hsel & _ & Hok & _
                 & Hbottom).
  vm_compute in Hsel. injection Hsel as <-.
  destruct Hok as (square & bore & Hrun); [discriminate |].
  exists handle, shaft, square, bore. split; [exact Hrun | exact Hbottom].
Defined.

Lemma tap_interface_cuts_order_witness :
  Example.heap !! Example.spec = Some TapHandleSpec_defaults
  /\ exists side handle shaft hole,
       tap_square_side_length Example.float_pow Example.spec world
       = (Ok side, world)
       /\ make_tap_handle_ex Example.spec world
          = (Ok (bd.Shape_fillet (bd.Part_None + handle + shaft) 3.5
                   [Example.ring_edge]
                 - bd.Pos 0 0 140
                   * bd.Box side side 10 bde.align.ANCHOR_TOP
                 - bd.Pos 0 0 140
                   * bd.Cylinder (3 / 2) 2 bde.align.ANCHOR_TOP
                 - hole)%shape, world)
       /\ top_z shaft = Some (fmax (140 - 10) (10 + (140 - 10 - 0.01))).
Proof.
  split; [reflexivity |].
  destruct (tap_interface_cuts_order Example.center Example.explore_edges
              Example.float_pow Example.spec world TapHandleSpec_defaults
              eq_refl)
    as (side & handle & shaft & selected & Hside & _ & _ & Hsel & Hcuts).
  cbv zeta in Hcuts. destruct Hcuts as (_ & Hok & Htop).
  vm_compute in Hsel. injection Hsel as <-.
  destruct Hok as (hole & Hrun); [discriminate |].
  exists side, handle, shaft, hole.
  split; [exact Hside |]. split; [exact Hrun | exact Htop].
Defined.


Lemma export_parts_type_check_witness :
  forallb
    (fun np =>
       isinstance Example.type Example.issubclass (snd np)
         [Example.bd_Part; Example.bd_Solid; Example.bd_Compound])
    [("handle"%string, Example.solid "Part" bd.Part_None)] = true
  /\ isinstance Example.type Example.issubclass (Example.text "oops")
       [Example.bd_Part; Example.bd_Solid; Example.bd_Compound] = false
  /\ export_parts Example.type Example.issubclass Example.class_str
       Example.bd_Part Example.bd_Solid Example.bd_Compound
       Example.export_folder Example.joinpath
       [("handle"%string, Example.solid "Part" bd.Part_None);
        ("note"%string, Example.text "oops");
        ("spare"%string, Example.solid "Solid" bd.Part_None)]
       world
     = (Raise (AssertionError
                 (Some "note is not an expected type (<class 'str'>)"%string)),
        {| heap := Example.heap;
           events :=
             [export_stl (Example.solid "Part" bd.Part_None)
                "build/handle.stl";
              export_step (Example.solid "Part" bd.Part_None)
                "build/handle.step"] |}).
Proof.
  split; [reflexivity |]. split; [reflexivity |].
  exact (proj1 (export_parts_type_check
                  Example.type Example.issubclass Example.class_str
                  Example.bd_Part Example.bd_Solid Example.bd_Compound
                  Example.export_folder Example.joinpath
                  [("handle"%string, Example.solid "Part" bd.Part_None)]
                  [("spare"%string, Example.solid "Solid" bd.Part_None)]
                  "note"%string (Example.text "oops") world
                  eq_refl eq_refl)).
Defined.

Lemma make_tap_handle_frame_witness :
  Example.heap !! Example.spec = Some TapHandleSpec_defaults
  /\ snd (make_tap_handle_ex Example.spec world) = world.
Proof.
  split; [reflexivity |].
  exact (proj1 (make_tap_handle_frame Example.center Example.explore_edges
                  Example.float_pow Example.spec world
                  TapHandleSpec_defaults eq_refl)).
Defined.

Lemma tap_square_side_length_recomputed_witness :
  Example.float_pow 2 0.5 = sqrt 2
  /\ Example.heap !! Example.spec = Some TapHandleSpec_defaults
  /\ bind (setattr Example.spec attr.tap_diameter 6)
       (fun _ => tap_square_side_length Example.float_pow Example.spec)
       world
     = (Ok (6 / sqrt 2),
        mkWorld (PyObject:=Example.PyObject)
          (<[Example.spec := set attr.tap_diameter 6 TapHandleSpec_defaults]>
             Example.heap) []).
Proof.
  split; [reflexivity |]. split; [reflexivity |].
  exact (proj1 (proj2 (tap_square_side_length_recomputed
                         Example.float_pow Example.format_2f Example.spec
                         world TapHandleSpec_defaults 6 eq_refl eq_refl))).
Defined.

(** C4, as stated, fails on the default instance.  After its shift the
    handle reaches down to [-10 + 0.1]; a cylinder starting 0.1 below that
    would start at [-10 + 0.1 - 0.1], while the one the code subtracts
    starts at [-10.1], lower by a further 0.1. *)
Lemma security_bolt_hole_not_tenth_below_handle :
  exists handle,
    handle_part Example.explore_edges Example.spec world
    = (Ok handle, world)
    /\ bottom_z handle = Some (- 10 + 0.1)
    /\ (forall p : bd.Shape Example.Edge,
          security_bolt_hole Example.spec p world
          = (Ok (p - bd.Pos 0 0 (-10.1)
                     * bd.Cylinder (4.9 / 2) 50
                         bde.align.ANCHOR_BOTTOM)%shape, world))
    /\ bottom_z
         (bd.Pos 0 0 (-10.1)
          * bd.Cylinder (4.9 / 2) 50 bde.align.ANCHOR_BOTTOM
          : bd.Shape Example.Edge)%shape
       = Some (-10.1)
    /\ (-10.1 =? - 10 + 0.1 - 0.1) = false
    /\ (-10.1 + 0.09 <? - 10 + 0.1 - 0.1) = true.
Proof.
  eexists. split.
  - exact (handle_part_run Example.explore_edges Example.spec world
             TapHandleSpec_defaults eq_refl).
  - repeat split.
Qed.

Lemma handle_part_shape_witness :
  Example.heap !! Example.spec = Some TapHandleSpec_defaults
  /\ exists shaft square bore hole,
       make_tap_handle_ex Example.spec world
       = (Ok (bd.Shape_fillet
                (bd.Part_None
                 + bd.Pos 0 0 0.1
                   * bd.Shape_fillet
                       (bd.Part_None
                        + bd.Cylinder 15 10 bde.align.ANCHOR_TOP
                        + bd.Box 120 15 10 bde.align.ANCHOR_TOP
                        + bd.Box 15 60 10 bde.align.ANCHOR_TOP)
                       4.5
                       [Example.ring_edge; Example.far_edge;
                        Example.shaft_edge]
                 + shaft)
                3.5 [Example.ring_edge]
              - square - bore - hole)%shape, world).
Proof.
  split; [reflexivity |].
  pose proof (handle_part_shape Example.center Example.explore_edges
                Example.float_pow Example.spec world
                TapHandleSpec_defaults eq_refl) as H.
  cbv zeta in H. destruct H as (_ & shaft & selected & _ & Hsel & _ & Hok).
  vm_compute in Hsel. injection Hsel as <-.
  destruct Hok as (square & bore & hole & Hrun); [discriminate |].
  exists shaft, square, bore, hole. exact Hrun.
Defined.

Lemma intersection_edges_sublist_witness :
  Example.heap !! Example.spec = Some TapHandleSpec_defaults
  /\ exists selected,
       intersection_edges Example.center Example.float_pow Example.spec
         (bd.items (edges Example.explore_edges bd.Part_None)) world
       = (Ok selected, world)
       /\ (length selected <= 3)%nat.
Proof.
  split; [reflexivity |].
  destruct (intersection_edges_sublist Example.center Example.explore_edges
              Example.float_pow Example.spec world TapHandleSpec_defaults
              bd.Part_None eq_refl) as (selected & Hrun & _ & Hlen).
  exists selected. split; [exact Hrun | exact Hlen].
Defined.

Lemma make_tap_handle_empty_band_witness :
  ({[ Example.spec := set attr.shaft_od 100 TapHandleSpec_defaults ]}
     : gmap ref TapHandleSpec) !! Example.spec
  = Some (set attr.shaft_od 100 TapHandleSpec_defaults)
  /\ (Example.float_pow (100 / 2) 2 - 1
      <? Example.float_pow (30 / 2) 2 + 1) = false
  /\ make_tap_handle_ex Example.spec
       (mkWorld (PyObject:=Example.PyObject)
          {[ Example.spec := set attr.shaft_od 100 TapHandleSpec_defaults ]}
          [])
     = (Raise (AssertionError None),
        mkWorld
          {[ Example.spec := set attr.shaft_od 100 TapHandleSpec_defaults ]}
          []).
Proof.
  split; [reflexivity |]. split; [reflexivity |].
  exact (make_tap_handle_empty_band Example.center Example.explore_edges
           Example.float_pow Example.spec
           (mkWorld (PyObject:=Example.PyObject)
              {[ Example.spec :=
                   set attr.shaft_od 100 TapHandleSpec_defaults ]} [])
           (set attr.shaft_od 100 TapHandleSpec_defaults)
           eq_refl eq_refl).
Defined.

Lemma intersection_edges_bounds_exclusive_witness :
  Example.heap !! Example.spec = Some TapHandleSpec_defaults
  /\ abs (bd.Z (Example.center (bd.mkVector 10 0 (-0.2)))) = 0.2
  /\ exists selected,
       intersection_edges Example.center Example.float_pow Example.spec
         (bd.items
            (edges (fun _ => [bd.mkVector 10 0 (-0.2); Example.ring_edge])
               bd.Part_None))
         world
       = (Ok selected, world)
       /\ ~ In (bd.mkVector 10 0 (-0.2)) selected.
Proof.
  split; [reflexivity |]. split; [reflexivity |].
  exact (intersection_edges_bounds_exclusive Example.center
           (fun _ => [bd.mkVector 10 0 (-0.2); Example.ring_edge])
           Example.float_pow Example.spec world TapHandleSpec_defaults
           bd.Part_None (bd.mkVector 10 0 (-0.2)) eq_refl
           (or_introl eq_refl)).
Defined.

Lemma tap_fields_leave_junction_witness :
  Example.heap !! Example.spec = Some TapHandleSpec_defaults
  /\ exists p selected hole square bore square' bore',
       make_tap_handle_ex Example.spec world
       = (Ok (bd.Shape_fillet p 3.5 selected
              - square - bore - hole)%shape, world)
       /\ fst (bind (setattr Example.spec attr.tap_round_length 4)
                 (fun _ => make_tap_handle_ex Example.spec) world)
          = Ok (bd.Shape_fillet p 3.5 selected
                - square' - bore' - hole)%shape.
Proof.
  split; [reflexivity |].
  destruct (tap_fields_leave_junction Example.center Example.explore_edges
              Example.float_pow Example.spec world TapHandleSpec_defaults
              attr.tap_round_length 4 eq_refl
              (or_intror (or_intror eq_refl)))
    as [[Habs _] | (p & sel & hole & sq & bore & sq' & bore' & Hb & Ha)].
  - discriminate Habs.
  - exists p, sel, hole, sq, bore, sq', bore'.
    split; [exact Hb | exact (f_equal fst Ha)].
Defined.

Lemma make_tap_handle_after_assignment_witness :
  Example.heap !! Example.spec = Some TapHandleSpec_defaults
  /\ exists handle shaft hole,
       fst (bind (setattr Example.spec attr.tap_diameter 6)
              (fun _ => make_tap_handle_ex Example.spec) world)
       = Ok (bd.Shape_fillet (bd.Part_None + handle + shaft) 3.5
               [Example.ring_edge]
             - bd.Pos 0 0 140
               * bd.Box (6 / sqrt 2) (6 / sqrt 2) 10 bde.align.ANCHOR_TOP
             - bd.Pos 0 0 140 * bd.Cylinder 3 2 bde.align.ANCHOR_TOP
             - hole)%shape.
Proof.
  split; [reflexivity |].
  pose proof (make_tap_handle_after_assignment Example.center
                Example.explore_edges Example.float_pow Example.spec world
                TapHandleSpec_defaults 6 eq_refl) as H.
  cbv zeta in H.
  destruct H as (handle & shaft & selected & _ & _ & Hsel & _ & Hok).
  vm_compute in Hsel. injection Hsel as <-.
  destruct Hok as (square & bore & hole & _ & Hafter); [discriminate |].
  exists handle, shaft, hole. exact (f_equal fst Hafter).
Defined.

Lemma setattr_other_fields_witness :
  Example.heap !! Example.spec = Some TapHandleSpec_defaults
  /\ attr.eqb attr.tap_diameter attr.shaft_od = false
  /\ fst (bind (setattr Example.spec attr.tap_diameter 6)
            (fun _ => getattr Example.spec attr.shaft_od) world)
     = Ok 12.5.
Proof.
  split; [reflexivity |]. split; [reflexivity |].
  destruct (setattr_other_fields Example.spec world TapHandleSpec_defaults
              attr.tap_diameter attr.shaft_od 6 eq_refl eq_refl)
    as (w' & Hrun & _).
  exact (f_equal fst Hrun).
Defined.

Lemma export_parts_all_pass_witness :
  forallb
    (fun np =>
       isinstance Example.type Example.issubclass (snd np)
         [Example.bd_Part; Example.bd_Solid; Example.bd_Compound])
    [("handle"%string, Example.solid "Part" bd.Part_None);
     ("spare"%string, Example.solid "Compound" bd.Part_None)] = true
  /\ export_parts Example.type Example.issubclass Example.class_str
       Example.bd_Part Example.bd_Solid Example.bd_Compound
       Example.export_folder Example.joinpath
       [("handle"%string, Example.solid "Part" bd.Part_None);
        ("spare"%string, Example.solid "Compound" bd.Part_None)]
       world
     = (Ok tt,
        {| heap := Example.heap;
           events :=
             [export_stl (Example.solid "Part" bd.Part_None)
                "build/handle.stl";
              export_step (Example.solid "Part" bd.Part_None)
                "build/handle.step";
              export_stl (Example.solid "Compound" bd.Part_None)
                "build/spare.stl";
              export_step (Example.solid "Compound" bd.Part_None)
                "build/spare.step"] |}).
Proof.
  split; [reflexivity |].
  exact (proj1 (export_parts_all_pass Example.type Example.issubclass
                  Example.class_str Example.bd_Part Example.bd_Solid
                  Example.bd_Compound Example.export_folder Example.joinpath
                  [("handle"%string, Example.solid "Part" bd.Part_None);
                   ("spare"%string, Example.solid "Compound" bd.Part_None)]
                  world eq_refl)).
Defined.

Lemma main_build_failure_witness :
  fst (make_tap_handle Example.center Example.explore_edges_no_ring
         Example.float_pow Example.spec
         (mkWorld (PyObject:=Example.PyObject) Example.heap
            [logger_info "tap_square_side_length: 2.12"]))
  = Raise (AssertionError None)
  /\ main Example.center Example.explore_edges_no_ring Example.float_pow
       Example.format_2f Example.type Example.issubclass Example.class_str
       Example.bd_Part Example.bd_Solid Example.bd_Compound Example.show
       Example.export_folder Example.joinpath (mkWorld ∅ [])
     = (Raise (AssertionError None),
        mkWorld Example.heap [logger_info "tap_square_side_length: 2.12"]).
Proof.
  split; [reflexivity |].
  exact (proj1 (main_build_failure Example.center
                  Example.explore_edges_no_ring Example.float_pow
                  Example.format_2f Example.type Example.issubclass
                  Example.class_str Example.bd_Part Example.bd_Solid
                  Example.bd_Compound Example.show Example.export_folder Example.joinpath
                  (mkWorld ∅ []) (AssertionError None) eq_refl)).
Defined.

Lemma main_success_witness :
  exists part,
    fst (make_tap_handle_ex Example.spec
           (mkWorld (PyObject:=Example.PyObject) Example.heap
              [logger_info "tap_square_side_length: 2.12"]))
    = Ok part
    /\ isinstance Example.type Example.issubclass (Example.show part)
         [Example.bd_Part; Example.bd_Solid; Example.bd_Compound] = true
    /\ main Example.center Example.explore_edges Example.float_pow
         Example.format_2f Example.type Example.issubclass Example.class_str
         Example.bd_Part Example.bd_Solid Example.bd_Compound Example.show
         Example.export_folder Example.joinpath (mkWorld ∅ [])
       = (Ok tt,
          mkWorld Example.heap
            [logger_info "tap_square_side_length: 2.12";
             logger_info "Showing CAD model(s)";
             mkdir "build";
             export_stl (Example.show part) "build/tap_handle_m3.stl";
             export_step (Example.show part) "build/tap_handle_m3.step"]).
Proof.
  eexists. split; [reflexivity |]. split; [reflexivity |].
  exact (main_success Example.center Example.explore_edges
           Example.float_pow Example.format_2f Example.type
           Example.issubclass Example.class_str Example.bd_Part
           Example.bd_Solid Example.bd_Compound Example.show
           Example.export_folder Example.joinpath (mkWorld ∅ []) _ eq_refl eq_refl).
Defined.

Lemma main_unexpected_type_witness :
  exists part,
    fst (make_tap_handle_ex Example.spec
           (mkWorld (PyObject:=Example.PyObject) Example.heap
              [logger_info "tap_square_side_length: 2.12"]))
    = Ok part
    /\ isinstance Example.type Example.issubclass (Example.text "viewer")
         [Example.bd_Part; Example.bd_Solid; Example.bd_Compound] = false
    /\ main Example.center Example.explore_edges Example.float_pow
         Example.format_2f Example.type Example.issubclass Example.class_str
         Example.bd_Part Example.bd_Solid Example.bd_Compound
         (fun _ => Example.text "viewer")
         Example.export_folder Example.joinpath (mkWorld ∅ [])
       = (Raise (AssertionError
                   (Some "tap_handle_m3 is not an expected type (<class 'str'>)"%string)),
          mkWorld Example.heap
            [logger_info "tap_square_side_length: 2.12";
             logger_info "Showing CAD model(s)";
             mkdir "build"]).
Proof.
  eexists. split; [reflexivity |]. split; [reflexivity |].
  exact (main_unexpected_type Example.center Example.explore_edges
           Example.float_pow Example.format_2f Example.type
           Example.issubclass Example.class_str Example.bd_Part
           Example.bd_Solid Example.bd_Compound
           (fun _ => Example.text "viewer")
           Example.export_folder Example.joinpath (mkWorld ∅ []) _ eq_refl eq_refl).
Defined.

(** C5, as stated, fails on the default instance.  The shaft as built
    reaches up to [10 + (140 - 10 - 0.01)], below 140; the two cuts are
    anchored at their top and placed at [Z = 140], which is not the
    shaft's top. *)
Lemma tap_interface_cuts_above_shaft_top :
  exists shaft : bd.Shape Example.Edge,
    shaft_part Example.spec world = (Ok shaft, world)
    /\ top_z shaft = Some (10 + (140 - 10 - 0.01))
    /\ (10 + (140 - 10 - 0.01) <? 140) = true
    /\ (forall p : bd.Shape Example.Edge,
          tap_interface_cuts Example.float_pow Example.spec p world
          = (Ok (p
                 - bd.Pos 0 0 140
                   * bd.Box (3 / sqrt 2) (3 / sqrt 2) 10
                       bde.align.ANCHOR_TOP
                 - bd.Pos 0 0 140
                   * bd.Cylinder (3 / 2) 2 bde.align.ANCHOR_TOP)%shape,
             world)).
Proof.
  eexists. split.
  - exact (shaft_part_run Example.spec world TapHandleSpec_defaults
             eq_refl).
  - repeat split.
Qed.

End Runs.
